(** * Validation: runtime checking of call arguments against annotations

    A shallow embedding of [validator.py]: the matcher [instance_or_union],
    the aggregator [validate], and the two decorators [validatedfunction]
    and [validatedclass].

    Python objects are modelled as far as the validator looks at them:
    a value has a runtime class, a class has a method resolution order,
    an annotation is a class, a [typing.Union], a subscripted generic or
    some other object.  Exceptions are explicit ([outcome]); calls of user
    callables are recorded in an event trace. *)

From Stdlib Require Import String Ascii List ZArith Bool Arith Lia.
Import ListNotations.

Local Open Scope string_scope.
Local Open Scope list_scope.

(** ** Text: slicing, joining and [repr] *)

Module PyStr.

Fixpoint drop (n : nat) (s : string) : string :=
  match n, s with
  | O, _ => s
  | S _, EmptyString => EmptyString
  | S k, String _ t => drop k t
  end.

Fixpoint take (n : nat) (s : string) : string :=
  match n, s with
  | O, _ => EmptyString
  | S _, EmptyString => EmptyString
  | S k, String c t => String c (take k t)
  end.

(** A slice bound as Python normalises it: negative bounds count from
    the end, and every bound is clamped into [0 .. len]. *)
Definition clamp (len : nat) (i : Z) : nat :=
  let j := if (i <? 0)%Z then (i + Z.of_nat len)%Z else i in
  Z.to_nat (Z.min (Z.max 0 j) (Z.of_nat len)).

(** [s[start:stop]]; [None] is an omitted bound. *)
Definition slice (s : string) (start stop : option Z) : string :=
  let len := String.length s in
  let a := match start with Some i => clamp len i | None => 0 end in
  let b := match stop with Some i => clamp len i | None => len end in
  take (b - a) (drop a s).

(** [s.startswith(p)] *)
Definition startswith (s p : string) : bool := String.prefix p s.

(** [sep.join(xs)] *)
Fixpoint join (sep : string) (xs : list string) : string :=
  match xs with
  | [] => ""
  | [x] => x
  | x :: rest => x ++ sep ++ join sep rest
  end.

Fixpoint contains (c : ascii) (s : string) : bool :=
  match s with
  | EmptyString => false
  | String d t => Ascii.eqb c d || contains c t
  end.

Definition squote : ascii := "039"%char.
Definition dquote : ascii := "034"%char.
Definition backslash : ascii := "092"%char.

Definition hexdigit (n : nat) : ascii :=
  if (n <? 10)%nat then ascii_of_nat (48 + n) else ascii_of_nat (87 + n).

(** Characters that [repr] writes as [\xNN] (text is read as Latin-1). *)
Definition unprintable (n : nat) : bool :=
  ((n <? 32) || (n =? 127) || ((128 <=? n) && (n <=? 160)) || (n =? 173))%nat.

Definition escape (quote c : ascii) : string :=
  let n := nat_of_ascii c in
  if Ascii.eqb c quote || Ascii.eqb c backslash then String backslash (String c "")
  else if (n =? 9)%nat then String backslash "t"
  else if (n =? 10)%nat then String backslash "n"
  else if (n =? 13)%nat then String backslash "r"
  else if unprintable n
    then String backslash (String "x" (String (hexdigit (n / 16)) (String (hexdigit (n mod 16)) "")))
  else String c "".

Fixpoint escape_all (quote : ascii) (s : string) : string :=
  match s with
  | EmptyString => EmptyString
  | String c t => escape quote c ++ escape_all quote t
  end.

(** [repr(s)] of a [str]: single quotes unless the text has a single
    quote and no double quote. *)
Definition repr (s : string) : string :=
  let quote := if contains squote s && negb (contains dquote s) then dquote else squote in
  String quote (escape_all quote s ++ String quote "").

(** [str(xs)] of a list of [str]. *)
Definition str_list (xs : list string) : string :=
  "[" ++ join ", " (map repr xs) ++ "]".

End PyStr.

(** ** Results and exceptions *)

Inductive exn : Type :=
| IndexError (msg : string)
| KeyError (key : string)
| NameError (name : string)
| TypeError (msg : string)
| OtherError (kind msg : string).

Inductive outcome (A : Type) : Type :=
| Return (a : A)
| Raise (e : exn).

Arguments Return {A} a.
Arguments Raise {A} e.

Definition bind_outcome {A B : Type} (m : outcome A) (k : A -> outcome B) : outcome B :=
  match m with
  | Return a => k a
  | Raise e => Raise e
  end.

Declare Scope outcome_scope.
Delimit Scope outcome_scope with outcome.
Notation "x <- m ;; k" := (bind_outcome m (fun x => k))
  (at level 61, m at next level, right associativity) : outcome_scope.

(** ** Classes, values and annotations *)

(** A class as the validator sees it: the name that [str(cls)] prints
    between the quotes, and the names of the classes of its method
    resolution order (the class itself first, [object] last). *)
Record pyclass : Type := PyClass {
  cls_name : string;
  cls_mro : list string
}.

Definition issubclass (c d : pyclass) : bool :=
  existsb (String.eqb (cls_name d)) (cls_mro c).

Module Builtins.
Definition object_ : pyclass := PyClass "object" ["object"].
Definition NoneType : pyclass := PyClass "NoneType" ["NoneType"; "object"].
Definition int_ : pyclass := PyClass "int" ["int"; "object"].
Definition bool_ : pyclass := PyClass "bool" ["bool"; "int"; "object"].
Definition float_ : pyclass := PyClass "float" ["float"; "object"].
Definition str_ : pyclass := PyClass "str" ["str"; "object"].
Definition list_ : pyclass := PyClass "list" ["list"; "object"].
(** [inspect.Parameter.empty], the annotation of an unannotated parameter,
    is the marker class [inspect._empty]. *)
Definition _empty : pyclass := PyClass "inspect._empty" ["inspect._empty"; "object"].
End Builtins.

#[warning="-register-all"]
Inductive value : Type :=
| VNone
| VBool (b : bool)
| VInt (z : Z)
| VStr (s : string)
| VList (items : list value)
| VObject (cls : pyclass) (ident : nat).

(** [type(value)] *)
Definition type_of (v : value) : pyclass :=
  match v with
  | VNone => Builtins.NoneType
  | VBool _ => Builtins.bool_
  | VInt _ => Builtins.int_
  | VStr _ => Builtins.str_
  | VList _ => Builtins.list_
  | VObject c _ => c
  end.

(** What can stand as a parameter annotation. *)
#[warning="-register-all"]
Inductive annotation : Type :=
| AClass (c : pyclass)
    (* a class: int, str, a user class, inspect._empty *)
| AUnion (args : list annotation)
    (* typing.Union[...] and typing.Optional[...]; the members are get_args *)
| AGeneric (origin : annotation) (args : list annotation)
    (* a subscripted generic such as typing.List[int]; get_origin is origin *)
| AOpaque (text : string).
    (* any other object: a string forward reference, None, typing.Any, a TypeVar *)

Inductive param_kind : Type :=
| POSITIONAL_ONLY
| POSITIONAL_OR_KEYWORD
| VAR_POSITIONAL
| KEYWORD_ONLY
| VAR_KEYWORD.

(** A declared parameter, as [inspect.signature] reports it. *)
Record param : Type := mkParam {
  name : string;
  kind : param_kind;
  annotation_of : annotation;
  default : option value
}.

(** A [dict] with [str] keys: insertion ordered, looked up by first match. *)
Definition dict : Type := list (string * value).

Fixpoint dict_get (d : dict) (k : string) : option value :=
  match d with
  | [] => None
  | (k', v) :: rest => if String.eqb k k' then Some v else dict_get rest k
  end.

(** [d[k] = v]: an existing key keeps its place, a new key goes last. *)
Fixpoint dict_set (d : dict) (k : string) (v : value) : dict :=
  match d with
  | [] => [(k, v)]
  | (k', v') :: rest =>
      if String.eqb k k' then (k', v) :: rest else (k', v') :: dict_set rest k v
  end.

Definition dict_keys (d : dict) : list string := map fst d.

(** [params[k]] on the ordered mapping of [inspect.signature(f).parameters]. *)
Fixpoint params_get (params : list param) (k : string) : option param :=
  match params with
  | [] => None
  | p :: rest => if String.eqb k (name p) then Some p else params_get rest k
  end.

(** ** Callables and their calls *)

(** A call of a user callable leaves an event; nothing else is observable
    about a body having started. *)
Inductive event : Type :=
| Enter (callee : string) (args : list value) (kwargs : dict).

Definition trace : Type := list event.

(** Computations that may run user code. *)
Definition M (A : Type) : Type := trace -> outcome A * trace.

Definition ret {A : Type} (a : A) : M A := fun t => (Return a, t).
Definition throw {A : Type} (e : exn) : M A := fun t => (Raise e, t).
Definition lift {A : Type} (o : outcome A) : M A := fun t => (o, t).
Definition bindM {A B : Type} (m : M A) (k : A -> M B) : M B :=
  fun t => match m t with
           | (Return a, t') => k a t'
           | (Raise e, t') => (Raise e, t')
           end.

Declare Scope M_scope.
Delimit Scope M_scope with M.
Notation "x <- m ;; k" := (bindM m (fun x => k))
  (at level 61, m at next level, right associativity) : M_scope.
Notation "m ;;; k" := (bindM m (fun _ => k))
  (at level 61, right associativity) : M_scope.

(** A function object: [__name__], its own declared parameters,
    [__wrapped__], and what running it does once it has been called.
    Callables without a name or without an introspectable signature are
    not function objects and are not covered. *)
#[warning="-register-all"]
Inductive callable : Type := Callable {
  co_name : string;
  co_params : list param;
  co_wrapped : option callable;
  co_body : list value -> dict -> M value
}.

(** Calling [f] with positional [args] and keyword [kwargs]. *)
Definition call (f : callable) (args : list value) (kwargs : dict) : M value :=
  fun t => co_body f args kwargs (t ++ [Enter (co_name f) args kwargs]).

(** [inspect.signature(f).parameters]: the signature of the innermost
    function reached through [__wrapped__]. *)
Fixpoint signature (f : callable) : list param :=
  match f with
  | Callable _ params None _ => params
  | Callable _ _ (Some g) _ => signature g
  end.

(** [functools.update_wrapper(wrapper, wrapped)] as far as it is observed
    here: the name is copied and [__wrapped__] is set. *)
Definition update_wrapper (wrapper wrapped : callable) : callable :=
  Callable (co_name wrapped) (co_params wrapper) (Some wrapped) (co_body wrapper).

(** What the interpreter supplies and the source relies on. *)
Class Runtime : Type := {
  (** [isinstance] accepts a [typing.Union] itself (Python 3.10 on). *)
  native_union : bool;
  (** [str(a)] of an annotation object that is not a class. *)
  typing_str : annotation -> string;
  (** Running the generated [def func<signature>: ...]: the parameters
      of the function it defines, or the exception that escapes the
      import-retry loop. *)
  exec_def : list param -> outcome (list param);
  (** The interpreter's own binding of a call to declared parameters:
      the local variables of the callee. *)
  bind_call : list param -> list value -> dict -> outcome dict;
  (** [issubclass(cls, x)] for an object [x] that is neither a class nor
      a [typing] construct, named by its text: a [TypeError] for most
      objects, an answer for some ([typing.Any] is a class from Python
      3.11 on). *)
  issubclass_opaque : pyclass -> string -> outcome bool;
  (** Calling an object that is not one of the functions modelled here,
      with positional values. *)
  call_object : value -> list value -> M value
}.

(** ** The validator *)

Section Validator.

Context {rt : Runtime}.

(** *** [isinstance] and the fallbacks of [instance_or_union] *)

Definition not_a_type : exn :=
  TypeError "isinstance() arg 2 must be a type, a tuple of types, or a union".

Definition subscripted_generic : exn :=
  TypeError "Subscripted generics cannot be used with class and instance checks".

(** [issubclass(cls, info)] for one member of a union. *)
Definition issubclass_info (cls : pyclass) (info : annotation) : outcome bool :=
  match info with
  | AClass c => Return (issubclass cls c)
  | AUnion _ | AGeneric _ _ => Raise subscripted_generic
  | AOpaque text => issubclass_opaque cls text
  end.

(** The subclass check of a [typing.Union]: members in order, the first
    success decides. *)
Fixpoint union_subclasscheck (cls : pyclass) (args : list annotation) : outcome bool :=
  match args with
  | [] => Return false
  | a :: rest =>
      (b <- issubclass_info cls a ;;
       if b then Return true else union_subclasscheck cls rest)%outcome
  end.

(** [isinstance(obj, compared)] for a single object [compared].  A class
    is taken to have the instance check of [type]: the answer is read off
    the method resolution order of the class of [obj]. *)
Definition isinstance (obj : value) (compared : annotation) : outcome bool :=
  match compared with
  | AClass c => Return (issubclass (type_of obj) c)
  | AUnion args =>
      if native_union then union_subclasscheck (type_of obj) args
      else Raise subscripted_generic
  | AGeneric _ _ => Raise subscripted_generic
  | AOpaque _ => Raise not_a_type
  end.

(** [isinstance(obj, items)] for a tuple [items]: members in order, the
    first success decides, a member that cannot be checked raises when
    it is reached. *)
Fixpoint isinstance_tuple (obj : value) (items : list annotation) : outcome bool :=
  match items with
  | [] => Return false
  | a :: rest =>
      (b <- isinstance obj a ;;
       if b then Return true else isinstance_tuple obj rest)%outcome
  end.

(** The result of [typing.get_origin]. *)
Inductive origin : Type :=
| NoOrigin                     (* None *)
| UnionOrigin                  (* typing.Union *)
| Origin (a : annotation).

Definition get_origin (a : annotation) : origin :=
  match a with
  | AClass _ | AOpaque _ => NoOrigin
  | AUnion _ => UnionOrigin
  | AGeneric o _ => Origin o
  end.

Definition get_args (a : annotation) : list annotation :=
  match a with
  | AClass _ | AOpaque _ => []
  | AUnion args | AGeneric _ args => args
  end.

Definition is_Union (o : origin) : bool :=
  match o with
  | UnionOrigin => true
  | _ => false
  end.

(** [isinstance(obj, o)] for the result of [get_origin]. *)
Definition isinstance_origin (obj : value) (o : origin) : outcome bool :=
  match o with
  | NoOrigin | UnionOrigin => Raise not_a_type
  | Origin a => isinstance obj a
  end.

Definition instance_or_union (obj : value) (compared : annotation) : outcome bool :=
  match isinstance obj compared with
  | Raise (TypeError _) =>
      if is_Union (get_origin compared)
      then isinstance_tuple obj (get_args compared)
      else isinstance_origin obj (get_origin compared)
  | r => r
  end.

(** *** [validate] *)

(** [str(cls)] of a class that prints the way [type] prints. *)
Definition str_type (c : pyclass) : string :=
  "<class '" ++ cls_name c ++ "'>".

(** [str(required_type)] *)
Definition str_annotation (a : annotation) : string :=
  match a with
  | AClass c => str_type c
  | _ => typing_str a
  end.

(** The position that iteration [index] of the first loop reads and
    writes: one further for a function named [__init__]. *)
Definition shifted (func_name : string) (index : nat) : nat :=
  if String.eqb func_name "__init__" then index + 1 else index.

(** The first loop: positional values are stored under parameter names. *)
Fixpoint bind_positional (func_name : string) (paramlist : list string)
    (args : list value) (indices : list nat) (arguments : dict) : outcome dict :=
  match indices with
  | [] => Return arguments
  | index :: rest =>
      let index := shifted func_name index in
      match nth_error args index with
      | None => Raise (IndexError "tuple index out of range")
      | Some v =>
          match nth_error paramlist index with
          | None => Raise (IndexError "list index out of range")
          | Some p => bind_positional func_name paramlist args rest (dict_set arguments p v)
          end
      end
  end.

(** The three lists the second loop fills. *)
Definition findings : Type := (list string * list string * list string)%type.

Definition good_type (required_type : annotation) : string :=
  if PyStr.startswith (str_annotation required_type) "typing"
  then PyStr.slice (str_annotation required_type) (Some 7%Z) None
  else PyStr.slice (str_annotation required_type) (Some 8%Z) (Some (-2)%Z).

Definition bad_type (v : value) : string :=
  PyStr.slice (str_type (type_of v)) (Some 8%Z) (Some (-2)%Z).

(** The second loop: every bound argument is checked. *)
Fixpoint check_arguments (params : list param) (arguments : dict)
    (keys : list string) (acc : findings) : outcome findings :=
  match keys with
  | [] => Return acc
  | argument :: rest =>
      match dict_get arguments argument with
      | None => Raise (KeyError argument)
      | Some v =>
          match params_get params argument with
          | None => Raise (KeyError argument)
          | Some p =>
              let required_type := annotation_of p in
              (ok <- instance_or_union v required_type ;;
               if negb ok then
                 let '(bad_args, bad_types, good_types) := acc in
                 check_arguments params arguments rest
                   (bad_args ++ [argument],
                    bad_types ++ [bad_type v],
                    good_types ++ [good_type required_type])
               else check_arguments params arguments rest acc)%outcome
          end
      end
  end.

Definition failure_message (bad_args bad_types good_types : list string) : string :=
  let plural := if (1 <? List.length bad_args)%nat then "s" else "" in
  "Argument" ++ plural ++ " "
    ++ PyStr.slice (PyStr.str_list bad_args) (Some 1%Z) (Some (-1)%Z)
    ++ " was passed incorrectly, of type" ++ plural ++ " "
    ++ PyStr.slice (PyStr.str_list bad_types) (Some 1%Z) (Some (-1)%Z)
    ++ ", should be of type" ++ plural ++ " "
    ++ PyStr.slice (PyStr.str_list good_types) (Some 1%Z) (Some (-1)%Z)
    ++ ".".

(** The bound arguments: the copy of [kwargs] after the first loop. *)
Definition bound_arguments (func : callable) (args : list value) (kwargs : dict)
    : outcome dict :=
  let arguments := kwargs in
  let params := signature func in
  let paramlist := map name params in
  bind_positional (co_name func) paramlist args (seq 0 (List.length args)) arguments.

Definition validate (func : callable) (args : list value) (kwargs : dict) : outcome unit :=
  let params := signature func in
  (arguments <- bound_arguments func args kwargs ;;
   found <- check_arguments params arguments (dict_keys arguments) ([], [], []) ;;
   let '(bad_args, bad_types, good_types) := found in
   if (0 <? List.length bad_args)%nat
   then Raise (TypeError (failure_message bad_args bad_types good_types))
   else Return tt)%outcome.

(** *** The decorators *)

Definition empty : annotation := AClass Builtins._empty.

Definition validatedfunction (func : callable) : callable :=
  let wrapper :=
    Callable "wrapper"
      [mkParam "args" VAR_POSITIONAL empty None; mkParam "kwargs" VAR_KEYWORD empty None]
      None
      (fun args kwargs =>
         (lift (validate func args kwargs) ;;;
          call func args kwargs ;;;
          ret VNone)%M) in
  update_wrapper wrapper func.

(** A class, as far as [validatedclass] touches it. *)
Record pyclassdef : Type := ClassDef {
  cd_class : pyclass;
  cd_init : callable
}.

(** The closure [validation(self, args, kwargs)] of [validatedclass]. *)
Definition validation (old_init : callable) (self : value)
    (args : list value) (kwargs : dict) : M value :=
  (lift (validate old_init args kwargs) ;;;
   call old_init (self :: args) kwargs ;;;
   ret VNone)%M.

(** Reading the names of [text] in the local variables of [func]. *)
Fixpoint load_names (locals : dict) (names : list string) : outcome (list value) :=
  match names with
  | [] => Return []
  | n :: rest =>
      match dict_get locals n with
      | None => Raise (NameError n)
      | Some v => (vs <- load_names locals rest ;; Return (v :: vs))%outcome
      end
  end.

(** The generated [func]: its body is the call [validation(text)].  The
    name [validation] is read in the local variables first, so a
    parameter of that name hides the closure and its value is called
    instead. *)
Definition generated_func (old_init : callable) (own : list param) : callable :=
  let params := map name (signature old_init) in
  Callable "func" own None
    (fun args kwargs =>
       (locals <- lift (bind_call own args kwargs) ;;
        passed <- lift (load_names locals params) ;;
        match dict_get locals "validation" with
        | Some callee => call_object callee passed
        | None =>
            match passed with
            | [] => throw (TypeError "validation() missing 1 required positional argument: 'self'")
            | self :: rest => validation old_init self rest []
            end
        end)%M).

Definition validatedclass (cls : pyclassdef) : outcome pyclassdef :=
  let old_init := cd_init cls in
  (own <- exec_def (signature old_init) ;;
   let new_init := update_wrapper (generated_func old_init own) old_init in
   Return (ClassDef (cd_class cls) new_init))%outcome.

End Validator.

(** ** A concrete runtime and concrete callables *)

Module Reference.

Definition is_NoneType (a : annotation) : bool :=
  match a with
  | AClass c => String.eqb (cls_name c) "NoneType"
  | _ => false
  end.

(** How Python 3.9 to 3.13 prints an annotation: a class by its name, a
    union of one type with [None] as [typing.Optional], any other union as
    [typing.Union], a generic in the form [list[int]]. *)
Fixpoint type_repr (a : annotation) : string :=
  match a with
  | AClass c => cls_name c
  | AUnion args =>
      match args with
      | [x; y] =>
          if is_NoneType y then "typing.Optional[" ++ type_repr x ++ "]"
          else if is_NoneType x then "typing.Optional[" ++ type_repr y ++ "]"
          else "typing.Union[" ++ type_repr x ++ ", " ++ type_repr y ++ "]"
      | _ => "typing.Union[" ++ PyStr.join ", " (map type_repr args) ++ "]"
      end
  | AGeneric o args => type_repr o ++ "[" ++ PyStr.join ", " (map type_repr args) ++ "]"
  | AOpaque text => text
  end.

(** [issubclass] with [typing.Any] answers no from Python 3.11 on; other
    objects are refused. *)
Definition issubclass_object (cls : pyclass) (text : string) : outcome bool :=
  if String.eqb text "typing.Any" then Return false
  else Raise (TypeError "issubclass() arg 2 must be a class, a tuple of classes, or a union").

(** The values modelled here are data; calling one is refused. *)
Definition call_data (callee : value) (args : list value) : M value :=
  throw (TypeError "object is not callable").

Definition has_key (d : dict) (k : string) : bool :=
  match dict_get d k with
  | Some _ => true
  | None => false
  end.

(** Binding of a call to positional-or-keyword parameters. *)
Fixpoint bind_params (params : list param) (args : list value) (kwargs : dict) : outcome dict :=
  match params with
  | [] =>
      match args with
      | [] => Return []
      | _ :: _ => Raise (TypeError "too many positional arguments")
      end
  | p :: ps =>
      match args with
      | a :: rest =>
          if has_key kwargs (name p)
          then Raise (TypeError "got multiple values for argument")
          else (locals <- bind_params ps rest kwargs ;; Return ((name p, a) :: locals))%outcome
      | [] =>
          match dict_get kwargs (name p), default p with
          | Some v, _ | None, Some v =>
              (locals <- bind_params ps [] kwargs ;; Return ((name p, v) :: locals))%outcome
          | None, None => Raise (TypeError "missing a required argument")
          end
      end
  end.

Definition declared (params : list param) (k : string) : bool :=
  match params_get params k with
  | Some _ => true
  | None => false
  end.

Definition bind_by_position_or_keyword
    (params : list param) (args : list value) (kwargs : dict) : outcome dict :=
  if forallb (declared params) (dict_keys kwargs)
  then bind_params params args kwargs
  else Raise (TypeError "got an unexpected keyword argument").

(** Python 3.11 to 3.13, with a generated definition that reads back
    the signature it was printed from. *)
#[export] Instance runtime : Runtime := {|
  native_union := true;
  typing_str := type_repr;
  exec_def := fun params => Return params;
  bind_call := bind_by_position_or_keyword;
  issubclass_opaque := issubclass_object;
  call_object := call_data
|}.

(** Before Python 3.10 [isinstance] refuses every [typing.Union]. *)
Definition legacy : Runtime := {|
  native_union := false;
  typing_str := type_repr;
  exec_def := fun params => Return params;
  bind_call := bind_by_position_or_keyword;
  issubclass_opaque := issubclass_object;
  call_object := call_data
|}.

Import Builtins.

Definition required (n : string) (a : annotation) : param :=
  mkParam n POSITIONAL_OR_KEYWORD a None.

Definition optional (n : string) (a : annotation) (d : value) : param :=
  mkParam n POSITIONAL_OR_KEYWORD a (Some d).

(** [def succ(x: int): return x + 1] *)
Definition succ : callable :=
  Callable "succ" [required "x" (AClass int_)] None
    (fun args kwargs =>
       match args with
       | [VInt z] => ret (VInt (z + 1))
       | [VBool b] => ret (VInt ((if b then 1 else 0) + 1))
       | _ => throw (TypeError "unsupported operand type(s) for +")
       end).


(** [def pair(a: int, b: str): return None] *)
Definition pair : callable :=
  Callable "pair" [required "a" (AClass int_); required "b" (AClass str_)] None
    (fun _ _ => ret VNone).

(** The [__init__] that [dataclass] writes for
    [name: str; id: int = 1000; weight: Union[int, float] = 100]. *)
Definition example_init : callable :=
  Callable "__init__"
    [required "self" empty;
     required "name" (AClass str_);
     optional "id" (AClass int_) (VInt 1000);
     optional "weight" (AUnion [AClass int_; AClass float_]) (VInt 100)]
    None
    (fun _ _ => ret VNone).

Definition example : pyclassdef :=
  ClassDef (PyClass "example" ["example"; "object"]) example_init.

(** The same parameters on a plain function. *)
Definition record : callable :=
  Callable "record"
    [required "name" (AClass str_);
     optional "id" (AClass int_) (VInt 1000);
     optional "weight" (AUnion [AClass int_; AClass float_]) (VInt 100)]
    None
    (fun _ _ => ret VNone).

End Reference.

(** ** The specification's vocabulary *)

Section Specification.

Context {rt : Runtime}.

(** One failing parameter: its name, the name of the class of the value
    supplied, and the declared constraint as text. *)
Record violation : Type := Violation {
  parameter_name : string;
  actual_type : string;
  expected_type : string
}.

Definition expected_name (a : annotation) : string :=
  match a with
  | AClass c => cls_name c
  | _ => good_type a
  end.

(** The violation of the bound argument [k], when the matcher rejects it. *)
Definition violation_of (params : list param) (arguments : dict) (k : string)
    : option violation :=
  match dict_get arguments k, params_get params k with
  | Some v, Some p =>
      match instance_or_union v (annotation_of p) with
      | Return false =>
          Some (Violation k (cls_name (type_of v)) (expected_name (annotation_of p)))
      | _ => None
      end
  | _, _ => None
  end.

(** All violations of one call, in the order of the bound arguments. *)
Fixpoint violations (params : list param) (arguments : dict) (keys : list string)
    : list violation :=
  match keys with
  | [] => []
  | k :: rest =>
      match violation_of params arguments k with
      | Some v => v :: violations params arguments rest
      | None => violations params arguments rest
      end
  end.

(** The bound argument [k] has a declared constraint that the matcher
    can decide. *)
Definition checkable (params : list param) (arguments : dict) (k : string) : bool :=
  match dict_get arguments k, params_get params k with
  | Some v, Some p =>
      match instance_or_union v (annotation_of p) with
      | Return _ => true
      | Raise _ => false
      end
  | _, _ => false
  end.



(** The three lists of the scan, grown by the violations [vs]. *)
Definition extend (acc : findings) (vs : list violation) : findings :=
  let '(bad_args, bad_types, good_types) := acc in
  (bad_args ++ map parameter_name vs,
   bad_types ++ map actual_type vs,
   good_types ++ map expected_type vs).


End Specification.

(** ** Facts about text *)

Module PyStrFacts.
Import PyStr.

Lemma length_app (a b : string) :
  String.length (a ++ b) = String.length a + String.length b.
Proof.
  induction a as [|c a IH]; simpl; [reflexivity | now rewrite IH].
Qed.

Lemma drop_app (a b : string) : drop (String.length a) (a ++ b) = b.
Proof.
  induction a as [|c a IH]; simpl; [now destruct b | exact IH].
Qed.

Lemma take_app (a b : string) : take (String.length a) (a ++ b) = a.
Proof.
  induction a as [|c a IH]; simpl; [now destruct b | now rewrite IH].
Qed.

(** Cutting a known head and a known, non-empty tail off a text. *)
Lemma slice_between (a s b : string) :
  0 < String.length b ->
  slice (a ++ s ++ b)
    (Some (Z.of_nat (String.length a)))
    (Some (- Z.of_nat (String.length b))%Z) = s.
Proof.
  intros Hb. unfold slice, clamp.
  rewrite !length_app.
  replace (Z.of_nat (String.length a) <? 0)%Z with false
    by (symmetry; apply Z.ltb_ge; lia).
  replace (- Z.of_nat (String.length b) <? 0)%Z with true
    by (symmetry; apply Z.ltb_lt; lia).
  replace (Z.to_nat (Z.min (Z.max 0 (Z.of_nat (String.length a)))
             (Z.of_nat (String.length a + (String.length s + String.length b)))))
    with (String.length a) by lia.
  replace (Z.to_nat (Z.min (Z.max 0 (- Z.of_nat (String.length b) +
             Z.of_nat (String.length a + (String.length s + String.length b))))
             (Z.of_nat (String.length a + (String.length s + String.length b)))))
    with (String.length a + String.length s) by lia.
  rewrite drop_app.
  replace (String.length a + String.length s - String.length a)
    with (String.length s) by lia.
  apply take_app.
Qed.


Lemma slice_class (n : string) :
  slice ("<class '" ++ n ++ "'>") (Some 8%Z) (Some (-2)%Z) = n.
Proof.
  exact (slice_between "<class '" n "'>" (Nat.lt_0_succ 1)).
Qed.

End PyStrFacts.

(** ** Facts about the matcher *)

Section MatcherFacts.

Context {rt : Runtime}.

Lemma instance_or_union_class (v : value) (c : pyclass) :
  instance_or_union v (AClass c) = Return (issubclass (type_of v) c).
Proof. reflexivity. Qed.

Lemma union_subclasscheck_classes (cls : pyclass) (cs : list pyclass) :
  union_subclasscheck cls (map AClass cs) = Return (existsb (issubclass cls) cs).
Proof.
  induction cs as [|c cs IH]; simpl; [reflexivity|].
  destruct (issubclass cls c); simpl; [reflexivity | exact IH].
Qed.

Lemma isinstance_tuple_classes (v : value) (cs : list pyclass) :
  isinstance_tuple v (map AClass cs) = Return (existsb (issubclass (type_of v)) cs).
Proof.
  induction cs as [|c cs IH]; simpl; [reflexivity|].
  destruct (issubclass (type_of v) c); simpl; [reflexivity | exact IH].
Qed.

(** On a union of classes both routes, the native check and the
    fallback through [get_args], compute the same disjunction. *)
Lemma instance_or_union_classes (v : value) (cs : list pyclass) :
  instance_or_union v (AUnion (map AClass cs))
  = Return (existsb (issubclass (type_of v)) cs).
Proof.
  unfold instance_or_union, isinstance.
  destruct native_union.
  - now rewrite union_subclasscheck_classes.
  - simpl. apply isinstance_tuple_classes.
Qed.

(** A member that is a subscripted generic makes the union raise on a
    value that no earlier member accepts, although the member alone is
    checked through its origin. *)
Lemma instance_or_union_generic_member (v : value) (o : pyclass) (args : list annotation) :
  instance_or_union v (AUnion [AGeneric (AClass o) args]) = Raise subscripted_generic
  /\ instance_or_union v (AGeneric (AClass o) args) = Return (issubclass (type_of v) o).
Proof.
  unfold instance_or_union, isinstance. destruct native_union; simpl; auto.
Qed.

Lemma good_type_class (c : pyclass) : good_type (AClass c) = cls_name c.
Proof.
  unfold good_type, str_annotation, str_type. simpl.
  apply PyStrFacts.slice_class.
Qed.

Lemma bad_type_name (v : value) : bad_type v = cls_name (type_of v).
Proof. apply PyStrFacts.slice_class. Qed.

Lemma good_type_expected (a : annotation) : good_type a = expected_name a.
Proof. destruct a; try reflexivity. apply good_type_class. Qed.

End MatcherFacts.

(** ** Facts about dictionaries and signatures *)

Lemma dict_keys_set (d : dict) (k : string) (v : value) :
  dict_keys (dict_set d k v)
  = if existsb (String.eqb k) (dict_keys d) then dict_keys d else dict_keys d ++ [k].
Proof.
  unfold dict_keys.
  induction d as [|[k' v'] d IH]; simpl; [reflexivity|].
  destruct (String.eqb k k'); simpl; [reflexivity|].
  rewrite IH.
  now destruct (existsb (String.eqb k) (map fst d)).
Qed.

Lemma dict_get_key (d : dict) (k : string) :
  In k (dict_keys d) -> exists v, dict_get d k = Some v.
Proof.
  induction d as [|[k' v'] d IH]; simpl; [tauto|].
  intros [->|Hin].
  - rewrite String.eqb_refl. eauto.
  - destruct (String.eqb k k'); eauto.
Qed.

Lemma params_get_declared (params : list param) (k : string) :
  In k (map name params) -> exists p, params_get params k = Some p.
Proof.
  induction params as [|p params IH]; simpl; [tauto|].
  intros [<-|Hin].
  - rewrite String.eqb_refl. eauto.
  - destruct (String.eqb k (name p)); eauto.
Qed.

(** ** Facts about the binder *)

Section BinderFacts.

Variables (func_name : string) (paramlist : list string) (args : list value).

Lemma bind_positional_raises (indices : list nat) (arguments : dict) (e : exn) :
  bind_positional func_name paramlist args indices arguments = Raise e ->
  exists msg, e = IndexError msg.
Proof.
  revert arguments.
  induction indices as [|i indices IH]; intros arguments; simpl; [discriminate|].
  destruct (nth_error args _); [|intros [= <-]; eauto].
  destruct (nth_error paramlist _); [apply IH | intros [= <-]; eauto].
Qed.

(** One iteration that reads past the end of [args] or of the
    parameter list makes the whole loop raise. *)
Lemma bind_positional_overflow (indices : list nat) (arguments : dict) (i : nat) :
  In i indices ->
  nth_error args (shifted func_name i) = None
  \/ nth_error paramlist (shifted func_name i) = None ->
  exists msg,
    bind_positional func_name paramlist args indices arguments = Raise (IndexError msg).
Proof.
  revert arguments.
  induction indices as [|j indices IH]; intros arguments Hin Hout; [destruct Hin|].
  simpl.
  destruct (nth_error args (shifted func_name j)) as [v|] eqn:Ha; [|eauto].
  destruct (nth_error paramlist (shifted func_name j)) as [p|] eqn:Hp; [|eauto].
  destruct Hin as [->|Hin]; [|now apply IH].
  destruct Hout; congruence.
Qed.


End BinderFacts.

(** ** Facts about the scan of the bound arguments *)

Section ScanFacts.

Context {rt : Runtime}.
Variables (params : list param) (arguments : dict).

Lemma extend_nil (acc : findings) : extend acc [] = acc.
Proof. destruct acc as [[ba bt] gt]. simpl. now rewrite !app_nil_r. Qed.

Lemma extend_cons (ba bt gt : list string) (v : violation) (vs : list violation) :
  extend (ba ++ [parameter_name v], bt ++ [actual_type v], gt ++ [expected_type v]) vs
  = extend (ba, bt, gt) (v :: vs).
Proof. simpl. now rewrite <- !app_assoc. Qed.

(** When the scan completes, its lists are exactly the violations. *)
Lemma check_arguments_found (keys : list string) (acc found : findings) :
  check_arguments params arguments keys acc = Return found ->
  found = extend acc (violations params arguments keys).
Proof.
  revert acc.
  induction keys as [|k keys IH]; intros acc; simpl.
  - intros [= <-]. now rewrite extend_nil.
  - unfold violation_of.
    destruct (dict_get arguments k) as [v|]; [|discriminate].
    destruct (params_get params k) as [p|]; [|discriminate].
    destruct (instance_or_union v (annotation_of p)) as [[|]|e]; simpl;
      [apply IH | | discriminate].
    destruct acc as [[ba bt] gt]. intros Hrest.
    rewrite (IH _ Hrest), bad_type_name, good_type_expected.
    apply (extend_cons ba bt gt (Violation k _ _)).
Qed.


Lemma violations_names (keys : list string) (k : string) :
  In k (map parameter_name (violations params arguments keys)) <->
  In k keys /\ exists v, violation_of params arguments k = Some v.
Proof.
  induction keys as [|k' keys IH]; simpl; [tauto|].
  destruct (violation_of params arguments k') as [v'|] eqn:Hv.
  - assert (parameter_name v' = k') as Hname.
    { unfold violation_of in Hv.
      destruct (dict_get arguments k'); [|discriminate].
      destruct (params_get params k'); [|discriminate].
      destruct (instance_or_union _ _) as [[|]|]; try discriminate.
      now injection Hv as <-. }
    simpl. rewrite IH, Hname. split.
    + intros [<-|[Hin Hex]]; eauto.
    + intros [[<-|Hin] Hex]; auto.
  - rewrite IH. split.
    + intros [Hin Hex]; auto.
    + intros [[<-|Hin] [v Hex]]; [congruence | eauto].
Qed.


End ScanFacts.

(** ** The aggregator *)

Section AggregatorFacts.

Context {rt : Runtime}.



(** A function named [__init__] that is given any positional value
    makes the first loop read past the end of [args]. *)
Lemma validate_init_positional (func : callable) (args : list value) (kwargs : dict) :
  co_name func = "__init__" ->
  args <> [] ->
  exists msg, validate func args kwargs = Raise (IndexError msg).
Proof.
  intros Hname Hargs. unfold validate, bound_arguments.
  destruct (bind_positional_overflow (co_name func) (map name (signature func)) args
              (seq 0 (List.length args)) kwargs (List.length args - 1)) as [msg ->];
    [| |now exists msg].
  - apply in_seq. destruct args; [congruence | simpl; lia].
  - left. unfold shifted. rewrite Hname. simpl.
    apply nth_error_None. destruct args; [congruence | simpl; lia].
Qed.


(** C9: a call with more positional values than the callable declares
    parameters ends in an [IndexError] raised by the first loop, before
    any argument is checked; it is not the [TypeError] of a validation
    failure. *)
Theorem validate_too_many_positional
    (func : callable) (args : list value) (kwargs : dict) :
  List.length (signature func) < List.length args ->
  (exists msg, validate func args kwargs = Raise (IndexError msg))
  /\ (forall msg, validate func args kwargs <> Raise (TypeError msg)).
Proof.
  intros Hmore.
  assert (exists msg, validate func args kwargs = Raise (IndexError msg)) as [msg Hraise].
  { unfold validate, bound_arguments.
    destruct (String.eqb (co_name func) "__init__") eqn:Hinit.
    - apply String.eqb_eq in Hinit.
      apply validate_init_positional; [exact Hinit|].
      destruct args; [simpl in Hmore; lia | discriminate].
    - destruct (bind_positional_overflow (co_name func) (map name (signature func)) args
                  (seq 0 (List.length args)) kwargs (List.length (signature func)))
        as [msg ->]; [| |now exists msg].
      + apply in_seq. lia.
      + right. unfold shifted. rewrite Hinit.
        apply nth_error_None. now rewrite length_map. }
  split; [now exists msg|].
  intros msg'. rewrite Hraise. discriminate.
Qed.


End AggregatorFacts.

(** ** What the matcher decides for particular constraints *)

Lemma dict_get_in_keys (d : dict) (k : string) (v : value) :
  dict_get d k = Some v -> In k (dict_keys d).
Proof.
  induction d as [|[k' v'] d IH]; simpl; [discriminate|].
  destruct (String.eqb_spec k k') as [->|_]; auto.
Qed.

Section ConstraintFacts.

Context {rt : Runtime}.


(** A bound argument that the matcher accepts is not among them. *)
Lemma accepted_argument_not_reported
    (func : callable) (arguments : dict) (k : string) (v : value) (p : param) :
  dict_get arguments k = Some v ->
  params_get (signature func) k = Some p ->
  instance_or_union v (annotation_of p) = Return true ->
  forall found,
    check_arguments (signature func) arguments (dict_keys arguments) ([], [], [])
      = Return found ->
    ~ In k (fst (fst found)).
Proof.
  intros Hget Hparam Haccept found Hscan.
  rewrite (check_arguments_found _ _ _ _ _ Hscan). simpl.
  rewrite violations_names. intros [_ [w Hw]].
  unfold violation_of in Hw. rewrite Hget, Hparam, Haccept in Hw. discriminate.
Qed.


(** C4, as the code has it: [bool] is a subclass of [int], so the
    matcher accepts a boolean for a parameter declared [int], and the
    scan does not report that parameter. *)
Theorem bool_accepted_for_int
    (func : callable) (args : list value) (kwargs arguments : dict)
    (k : string) (b : bool) (p : param) :
  bound_arguments func args kwargs = Return arguments ->
  dict_get arguments k = Some (VBool b) ->
  params_get (signature func) k = Some p ->
  annotation_of p = AClass Builtins.int_ ->
  instance_or_union (VBool b) (annotation_of p) = Return true
  /\ (forall found,
        check_arguments (signature func) arguments (dict_keys arguments) ([], [], [])
          = Return found ->
        ~ In k (fst (fst found))).
Proof.
  intros _ Hget Hparam Hint.
  assert (instance_or_union (VBool b) (annotation_of p) = Return true) as Haccept
    by now rewrite Hint.
  split; [exact Haccept|].
  now apply (accepted_argument_not_reported func arguments k (VBool b) p).
Qed.

(** C6, as the code has it: for a union whose members are all classes
    the matcher never raises and answers whether the class of the value
    is a subclass of one of the members; so it accepts the value exactly
    when some member is a superclass of the class of the value, which is
    when the matcher accepts the value for that member alone. *)
Theorem union_of_classes_decided (v : value) (cs : list pyclass) :
  instance_or_union v (AUnion (map AClass cs))
  = Return (existsb (issubclass (type_of v)) cs)
  /\ (instance_or_union v (AUnion (map AClass cs)) = Return true
      <-> exists c, In c cs /\ issubclass (type_of v) c = true
                    /\ instance_or_union v (AClass c) = Return true).
Proof.
  rewrite instance_or_union_classes. split; [reflexivity|]. split.
  - intros [= Hex]. apply existsb_exists in Hex as (c & Hin & Hsub).
    exists c. rewrite instance_or_union_class, Hsub. auto.
  - intros (c & Hin & Hsub & _). f_equal. apply existsb_exists. eauto.
Qed.

End ConstraintFacts.

(** ** The decorators *)

Section WrapperFacts.

Context {rt : Runtime}.

(** What the wrapper of [validatedfunction] does when validation
    passes: the original runs, and its result is dropped. *)
Lemma validatedfunction_returns_None
    (func : callable) (args : list value) (kwargs : dict) (t t' : trace) (r : value) :
  validate func args kwargs = Return tt ->
  call func args kwargs t = (Return r, t') ->
  co_body (validatedfunction func) args kwargs t = (Return VNone, t').
Proof.
  intros Hvalid Hcall. simpl. unfold bindM, lift, ret.
  now rewrite Hvalid, Hcall.
Qed.

(** When validation passes, the wrapper hands the call to the original:
    the outcome of that call decides, except that a returned value is
    replaced by [None]. *)
Lemma passed_validation_runs_body
    (func : callable) (args : list value) (kwargs : dict) (t : trace) :
  validate func args kwargs = Return tt ->
  co_body (validatedfunction func) args kwargs t
  = match call func args kwargs t with
    | (Return _, t') => (Return VNone, t')
    | (Raise e, t') => (Raise e, t')
    end.
Proof.
  intros Hvalid. simpl. unfold bindM, lift, ret. rewrite Hvalid.
  now destruct (call func args kwargs t) as [[r|e] t'].
Qed.

(** C7: when validation raises, the wrapper of [validatedfunction] and
    the closure [validation] of [validatedclass] end with that same
    exception and an unchanged trace: the original callable was not
    called. *)
Theorem failed_validation_skips_body
    (func : callable) (args : list value) (kwargs : dict) (e : exn) (t : trace) :
  validate func args kwargs = Raise e ->
  co_body (validatedfunction func) args kwargs t = (Raise e, t)
  /\ (forall self, validation func self args kwargs t = (Raise e, t)).
Proof.
  intros Hfail. split; [|intros self]; simpl;
    unfold validation, bindM, lift; now rewrite Hfail.
Qed.

(** The constructor that [validatedclass] installs changes the trace
    only after validation of the very values it passes on has returned
    normally, unless a local variable named [validation] hides the
    closure. *)
Lemma installed_init_validates_first
    (cls cls' : pyclassdef) (args : list value) (kwargs : dict) (t : trace) :
  validatedclass cls = Return cls' ->
  snd (co_body (cd_init cls') args kwargs t) = t
  \/ exists own locals,
       exec_def (signature (cd_init cls)) = Return own
       /\ bind_call own args kwargs = Return locals
       /\ ((exists callee, dict_get locals "validation" = Some callee)
           \/ exists self rest,
                load_names locals (map name (signature (cd_init cls)))
                  = Return (self :: rest)
                /\ validate (cd_init cls) rest [] = Return tt).
Proof.
  unfold validatedclass.
  destruct (exec_def _) as [own|e] eqn:Hexec; simpl; [|discriminate].
  intros [= <-]. simpl. unfold bindM, lift, throw.
  destruct (bind_call own args kwargs) as [locals|e] eqn:Hbind; simpl; auto.
  destruct (load_names locals _) as [passed|e] eqn:Hload; simpl; auto.
  destruct (dict_get locals "validation") as [callee|] eqn:Hshadow.
  - right. exists own, locals. eauto.
  - destruct passed as [|self rest]; simpl; auto.
    unfold validation, bindM, lift.
    destruct (validate (cd_init cls) rest []) as [[]|e] eqn:Hvalid; simpl; auto.
    right. exists own, locals. split; [reflexivity|]. split; [exact Hbind|].
    right. exists self, rest. auto.
Qed.

(** Introspection follows [__wrapped__]: after [validatedclass] the
    parameters reported for the constructor are those of the original,
    whatever the generated function declares itself. *)
Lemma validatedclass_preserves_signature (cls cls' : pyclassdef) :
  validatedclass cls = Return cls' ->
  signature (cd_init cls') = signature (cd_init cls)
  /\ map name (signature (cd_init cls')) = map name (signature (cd_init cls))
  /\ map default (signature (cd_init cls')) = map default (signature (cd_init cls)).
Proof.
  unfold validatedclass. destruct (exec_def _) as [own|e]; simpl; [|discriminate].
  intros [= <-]. simpl. auto.
Qed.

(** The name is preserved too, so a wrapped constructor is still a
    function named [__init__]. *)
Lemma validatedclass_preserves_name (cls cls' : pyclassdef) :
  validatedclass cls = Return cls' ->
  co_name (cd_init cls') = co_name (cd_init cls).
Proof.
  unfold validatedclass. destruct (exec_def _) as [own|e]; simpl; [|discriminate].
  now intros [= <-].
Qed.

End WrapperFacts.

(** ** The claims at concrete calls *)

Module Cases.
Import Reference Builtins.

(** C1: the wrapper of [validatedfunction] calls the original and drops
    what it returns: [succ(1)] is 2, the wrapped [succ(1)] is [None]. *)
Theorem validatedfunction_drops_result :
  call succ [VInt 1] [] [] = (Return (VInt 2), [Enter "succ" [VInt 1] []])
  /\ co_body (validatedfunction succ) [VInt 1] [] []
     = (Return VNone, [Enter "succ" [VInt 1] []]).
Proof. split; reflexivity. Qed.

(** C2: for [__init__] the first loop shifts the index it reads [args]
    with as well as the index into the parameter list: with one
    positional value the only iteration reads [args[1]] and raises, and
    with two the first iteration stores the second value under the
    second parameter. *)
Theorem init_positional_misaligned :
  validate example_init [VStr "x"] [] = Raise (IndexError "tuple index out of range")
  /\ bind_positional "__init__" (map name (signature example_init))
       [VStr "x"; VInt 5] [0] []
     = Return [("name", VInt 5)].
Proof. split; reflexivity. Qed.

(** The constructor that [validatedclass] installs on [example] passes
    every declared value on by position, so it meets the same slip on
    every call: nothing is checked and the original never runs. *)
Lemma wrapped_example_constructor_raises :
  co_body
    (update_wrapper (generated_func example_init (signature example_init)) example_init)
    [VObject (cd_class example) 0; VStr "x"] [] []
  = (Raise (IndexError "tuple index out of range"), []).
Proof. reflexivity. Qed.

(** The worked example of the specification, on both kinds of runtime:
    a text for [id] is reported alone and in the singular, and an integer
    [id] with a float [weight] passes. *)
Lemma record_examples :
  validate record [] [("name", VStr "x"); ("id", VStr "bad")]
  = Raise (TypeError
      "Argument 'id' was passed incorrectly, of type 'str', should be of type 'int'.")
  /\ validate record [] [("name", VStr "x"); ("id", VInt 5); ("weight", VObject float_ 0)]
     = Return tt
  /\ @validate legacy record []
       [("name", VStr "x"); ("id", VInt 5); ("weight", VObject float_ 0)]
     = Return tt.
Proof. repeat split; reflexivity. Qed.



(** C4 fails: [True] passes for a parameter declared [int]. *)
Lemma bool_for_int_counterexample :
  check_arguments (signature succ) [("x", VBool true)] ["x"] ([], [], [])
    = Return ([], [], [])
  /\ validate succ [VBool true] [] = Return tt.
Proof. split; reflexivity. Qed.

Lemma bool_accepted_for_int_witness :
  instance_or_union (VBool true) (AClass int_) = Return true
  /\ (forall found,
        check_arguments (signature succ) [("x", VBool true)] (dict_keys [("x", VBool true)])
          ([], [], []) = Return found ->
        ~ In "x" (fst (fst found))).
Proof.
  apply (bool_accepted_for_int succ [VBool true] [] [("x", VBool true)] "x" true
           (required "x" (AClass int_))); reflexivity.
Defined.


Lemma failed_validation_skips_body_witness :
  co_body (validatedfunction succ) [VStr "a"] [] []
    = (Raise (TypeError
         "Argument 'x' was passed incorrectly, of type 'str', should be of type 'int'."), [])
  /\ (forall self,
        validation succ self [VStr "a"] [] []
        = (Raise (TypeError
             "Argument 'x' was passed incorrectly, of type 'str', should be of type 'int'."), [])).
Proof.
  apply (failed_validation_skips_body succ [VStr "a"] []). reflexivity.
Defined.

Lemma validate_too_many_positional_witness :
  (exists msg, validate pair [VStr "a"; VInt 1; VInt 3] [] = Raise (IndexError msg))
  /\ (forall msg, validate pair [VStr "a"; VInt 1; VInt 3] [] <> Raise (TypeError msg)).
Proof.
  apply (validate_too_many_positional pair [VStr "a"; VInt 1; VInt 3] []).
  simpl. lia.
Defined.




(** C6 fails: a list matches the member [List[int]], checked through its
    origin, but for the union of [int] and [List[int]] the matcher raises,
    on the native route and on the fallback alike. *)
Lemma union_member_counterexample :
  instance_or_union (VList []) (AGeneric (AClass list_) [AClass int_]) = Return true
  /\ instance_or_union (VList [])
       (AUnion [AClass int_; AGeneric (AClass list_) [AClass int_]])
     = Raise subscripted_generic
  /\ @instance_or_union legacy (VList [])
       (AUnion [AClass int_; AGeneric (AClass list_) [AClass int_]])
     = Raise subscripted_generic.
Proof. repeat split; reflexivity. Qed.

End Cases.

(** ** Further facts: dictionaries *)

Lemma dict_get_set_same (d : dict) (k : string) (v : value) :
  dict_get (dict_set d k v) k = Some v.
Proof.
  induction d as [|[k' v'] d IH]; simpl.
  - now rewrite String.eqb_refl.
  - destruct (String.eqb k k') eqn:Hk; simpl; now rewrite Hk.
Qed.

Lemma dict_get_set_other (d : dict) (k k' : string) (v : value) :
  k' <> k -> dict_get (dict_set d k v) k' = dict_get d k'.
Proof.
  intros Hne. induction d as [|[k0 v0] d IH]; simpl.
  - now apply String.eqb_neq in Hne as ->.
  - destruct (String.eqb_spec k k0) as [->|Hk]; simpl.
    + now apply String.eqb_neq in Hne as ->.
    + now rewrite IH.
Qed.

Lemma params_get_nth (params : list param) (i : nat) (p : param) :
  NoDup (map name params) ->
  nth_error params i = Some p ->
  params_get params (name p) = Some p.
Proof.
  revert i. induction params as [|q params IH]; intros i Hnodup Hnth.
  - now destruct i.
  - simpl. inversion Hnodup as [|? ? Hnotin Hrest]; subst.
    destruct i as [|i]; simpl in Hnth.
    + injection Hnth as ->. now rewrite String.eqb_refl.
    + destruct (String.eqb_spec (name p) (name q)) as [Heq|_]; [|eauto].
      exfalso. apply Hnotin. rewrite <- Heq.
      apply in_map. eapply nth_error_In; eassumption.
Qed.

(** ** Further facts: the matcher *)

Section MatcherExtra.

Context {rt : Runtime}.

(** X2: a subscripted generic is checked through its origin alone; its
    type arguments play no part, so two generics of one origin accept
    the same values. *)
Theorem generic_checked_by_origin
    (v : value) (o : pyclass) (args args' : list annotation) :
  instance_or_union v (AGeneric (AClass o) args) = Return (issubclass (type_of v) o)
  /\ instance_or_union v (AGeneric (AClass o) args)
     = instance_or_union v (AGeneric (AClass o) args').
Proof. split; reflexivity. Qed.

(** An annotation that is neither a class, a union nor a generic makes
    the matcher raise on every value. *)
Lemma opaque_annotation_raises (v : value) (text : string) :
  instance_or_union v (AOpaque text) = Raise not_a_type.
Proof. reflexivity. Qed.

End MatcherExtra.

(** ** Further facts: the binder *)

Section BinderExtra.

Variables (func_name : string) (paramlist : list string) (args : list value).

(** The keys of [kwargs] stay in front; every key the first loop adds
    behind them is the parameter at the position some iteration wrote. *)
Lemma bind_positional_added (indices : list nat) (arguments bound : dict) :
  bind_positional func_name paramlist args indices arguments = Return bound ->
  exists added,
    dict_keys bound = dict_keys arguments ++ added
    /\ (forall k, In k added ->
          exists i, In i indices /\ nth_error paramlist (shifted func_name i) = Some k).
Proof.
  revert arguments.
  induction indices as [|i indices IH]; intros arguments; simpl.
  - intros [= <-]. exists []. rewrite app_nil_r. split; [reflexivity | intros k []].
  - destruct (nth_error args _) as [v|]; [|discriminate].
    destruct (nth_error paramlist _) as [p|] eqn:Hp; [|discriminate].
    intros Hrest. destruct (IH _ Hrest) as (added & Hkeys & Hadded).
    rewrite dict_keys_set in Hkeys.
    destruct (existsb (String.eqb p) (dict_keys arguments)).
    + exists added. split; [exact Hkeys|].
      intros k Hk. destruct (Hadded k Hk) as (j & Hj & Hnth). eauto.
    + exists (p :: added). rewrite <- app_assoc in Hkeys. split; [exact Hkeys|].
      intros k [<-|Hk]; [eauto|].
      destruct (Hadded k Hk) as (j & Hj & Hnth). eauto.
Qed.

(** The first loop on a function that is not named [__init__], over the
    positions [s .. s+m-1] of a duplicate-free parameter list: it
    completes, each position holds its own value afterwards, and every
    other key is as before. *)
Lemma bind_positional_plain (m s : nat) (arguments : dict) :
  String.eqb func_name "__init__" = false ->
  NoDup paramlist ->
  s + m <= List.length args ->
  s + m <= List.length paramlist ->
  exists bound,
    bind_positional func_name paramlist args (seq s m) arguments = Return bound
    /\ (forall i p v, s <= i < s + m ->
          nth_error paramlist i = Some p -> nth_error args i = Some v ->
          dict_get bound p = Some v)
    /\ (forall k, (forall i, s <= i < s + m -> nth_error paramlist i <> Some k) ->
          dict_get bound k = dict_get arguments k).
Proof.
  intros Hplain Hnodup. revert s arguments.
  induction m as [|m IH]; intros s arguments Hargs Hparams; simpl.
  - exists arguments. split; [reflexivity|]. split; [intros; lia | reflexivity].
  - unfold shifted. rewrite Hplain.
    destruct (nth_error args s) as [v|] eqn:Hv;
      [|apply nth_error_None in Hv; lia].
    destruct (nth_error paramlist s) as [p|] eqn:Hp;
      [|apply nth_error_None in Hp; lia].
    destruct (IH (S s) (dict_set arguments p v)) as (bound & Hloop & Hpos & Hrest);
      [lia | lia |].
    exists bound. split; [exact Hloop|]. split.
    + intros i q w Hi Hq Hw.
      destruct (Nat.eq_dec i s) as [->|Hne].
      * assert (q = p) as -> by congruence. assert (w = v) as -> by congruence.
        rewrite Hrest; [apply dict_get_set_same|].
        intros j Hj Hjp.
        assert (j = s); [|lia].
        apply (proj1 (NoDup_nth_error paramlist) Hnodup); [|congruence].
        apply nth_error_Some. congruence.
      * apply (Hpos i); auto. lia.
    + intros k Hk. rewrite Hrest.
      * apply dict_get_set_other. intros ->. apply (Hk s); [lia | exact Hp].
      * intros i Hi. apply Hk. lia.
Qed.

End BinderExtra.

Section BoundArguments.

Context {rt : Runtime}.

(** X4: the bound arguments are the keywords of the call, in call
    order, followed by names of declared parameters that were filled by
    position: each key the binder adds is the parameter at the shifted
    position of one of the positional values. *)
Theorem bound_arguments_keys
    (func : callable) (args : list value) (kwargs arguments : dict) :
  bound_arguments func args kwargs = Return arguments ->
  exists added,
    dict_keys arguments = dict_keys kwargs ++ added
    /\ (forall k, In k added ->
          exists i, i < List.length args
            /\ nth_error (map name (signature func)) (shifted (co_name func) i) = Some k).
Proof.
  unfold bound_arguments. intros Hbound.
  destruct (bind_positional_added _ _ _ _ _ _ Hbound) as (added & Hkeys & Hadded).
  exists added. split; [exact Hkeys|].
  intros k Hk. destruct (Hadded k Hk) as (i & Hi & Hnth).
  exists i. split; [|exact Hnth]. apply in_seq in Hi. lia.
Qed.

End BoundArguments.

Section PlainBinding.

Context {rt : Runtime}.

(** X5: for a function that is not named [__init__], with no more
    positional values than parameters, the binder completes and stores
    the i-th positional value under the i-th declared parameter; a keyword
    of the same name is overwritten by it. *)
Theorem plain_positional_binding
    (func : callable) (args : list value) (kwargs : dict) :
  co_name func <> "__init__" ->
  NoDup (map name (signature func)) ->
  List.length args <= List.length (signature func) ->
  exists arguments,
    bound_arguments func args kwargs = Return arguments
    /\ (forall i p v,
          nth_error (signature func) i = Some p ->
          nth_error args i = Some v ->
          dict_get arguments (name p) = Some v).
Proof.
  intros Hname Hnodup Hlen. unfold bound_arguments.
  destruct (bind_positional_plain (co_name func) (map name (signature func)) args
              (List.length args) 0 kwargs) as (arguments & Hloop & Hpos & _);
    [now apply String.eqb_neq | exact Hnodup | lia | rewrite length_map; lia |].
  exists arguments. split; [exact Hloop|].
  intros i p v Hp Hv. apply (Hpos i); [|now apply map_nth_error | exact Hv].
  assert (i < List.length args) by (apply nth_error_Some; congruence). lia.
Qed.

(** X6: under the same conditions a keyword that is not the name of
    one of the parameters filled by position keeps the value the caller
    gave it, and a name that is neither stays unbound. *)
Theorem plain_binding_keeps_keywords
    (func : callable) (args : list value) (kwargs arguments : dict) (k : string) :
  co_name func <> "__init__" ->
  NoDup (map name (signature func)) ->
  List.length args <= List.length (signature func) ->
  bound_arguments func args kwargs = Return arguments ->
  ~ In k (firstn (List.length args) (map name (signature func))) ->
  dict_get arguments k = dict_get kwargs k.
Proof.
  intros Hname Hnodup Hlen Hbound Hfresh. unfold bound_arguments in Hbound.
  destruct (bind_positional_plain (co_name func) (map name (signature func)) args
              (List.length args) 0 kwargs) as (bound & Hloop & _ & Hrest);
    [now apply String.eqb_neq | exact Hnodup | lia | rewrite length_map; lia |].
  rewrite Hloop in Hbound. injection Hbound as <-.
  apply Hrest. intros i Hi Hnth. apply Hfresh.
  apply (nth_error_In _ i). rewrite nth_error_firstn.
  destruct (Nat.ltb_spec i (List.length args)); [exact Hnth | lia].
Qed.

End PlainBinding.

(** ** Further facts: the aggregator *)

Section ScanExtra.

Context {rt : Runtime}.
Variables (params : list param) (arguments : dict).

(** A scan that completes has found every key checkable. *)
Lemma check_arguments_checked (keys : list string) (acc found : findings) :
  check_arguments params arguments keys acc = Return found ->
  forallb (checkable params arguments) keys = true.
Proof.
  revert acc.
  induction keys as [|k keys IH]; intros acc; simpl; [reflexivity|].
  unfold checkable at 1.
  destruct (dict_get arguments k) as [v|]; [|discriminate].
  destruct (params_get params k) as [p|]; [|discriminate].
  destruct (instance_or_union v (annotation_of p)) as [[|]|e]; simpl;
    [apply IH | destruct acc as [[ba bt] gt]; apply IH | discriminate].
Qed.

Lemma violations_none (keys : list string) (k : string) :
  violations params arguments keys = [] ->
  In k keys ->
  violation_of params arguments k = None.
Proof.
  induction keys as [|k' keys IH]; simpl; [tauto|].
  destruct (violation_of params arguments k') eqn:Hv; [discriminate|].
  intros Hnone [<-|Hin]; auto.
Qed.

End ScanExtra.

Section ValidateExtra.

Context {rt : Runtime}.

(** What a normal return of [validate] says about its two loops. *)
Lemma validate_return_inv (func : callable) (args : list value) (kwargs : dict) :
  validate func args kwargs = Return tt ->
  exists arguments,
    bound_arguments func args kwargs = Return arguments
    /\ forallb (checkable (signature func) arguments) (dict_keys arguments) = true
    /\ violations (signature func) arguments (dict_keys arguments) = [].
Proof.
  unfold validate.
  destruct (bound_arguments func args kwargs) as [arguments|e]; simpl; [|discriminate].
  destruct (check_arguments (signature func) arguments (dict_keys arguments) ([], [], []))
    as [found|e] eqn:Hscan; simpl; [|discriminate].
  pose proof (check_arguments_checked _ _ _ _ _ Hscan) as Hchecked.
  apply check_arguments_found in Hscan as ->. simpl.
  destruct (violations _ _ _) as [|w ws] eqn:Hnone; simpl; [|discriminate].
  intros _. exists arguments. auto.
Qed.

Lemma passed_argument_accepted (params : list param) (arguments : dict)
    (k : string) (v : value) :
  forallb (checkable params arguments) (dict_keys arguments) = true ->
  violations params arguments (dict_keys arguments) = [] ->
  dict_get arguments k = Some v ->
  exists p, params_get params k = Some p
            /\ instance_or_union v (annotation_of p) = Return true.
Proof.
  intros Hchecked Hnone Hget.
  pose proof (dict_get_in_keys _ _ _ Hget) as Hin.
  pose proof (proj1 (forallb_forall _ _) Hchecked k Hin) as Hk.
  pose proof (violations_none _ _ _ k Hnone Hin) as Hv.
  unfold checkable in Hk. unfold violation_of in Hv. rewrite Hget in Hk, Hv.
  destruct (params_get params k) as [p|]; [|discriminate].
  exists p. split; [reflexivity|].
  destruct (instance_or_union v (annotation_of p)) as [[|]|]; congruence.
Qed.

(** X8: when [validate] returns, every bound argument names a declared
    parameter and the matcher has accepted its value for the annotation
    of that parameter. *)
Theorem validate_return_sound
    (func : callable) (args : list value) (kwargs : dict) :
  validate func args kwargs = Return tt ->
  exists arguments,
    bound_arguments func args kwargs = Return arguments
    /\ (forall k v, dict_get arguments k = Some v ->
          exists p, params_get (signature func) k = Some p
                    /\ instance_or_union v (annotation_of p) = Return true).
Proof.
  intros Hvalid.
  destruct (validate_return_inv _ _ _ Hvalid) as (arguments & Hbound & Hchecked & Hnone).
  exists arguments. split; [exact Hbound|].
  intros k v. now apply passed_argument_accepted.
Qed.

(** X9: for a function that is not named [__init__], a normal return
    of [validate] means that every positional value has been accepted
    for the annotation of the parameter at its own position. *)
Theorem plain_positional_checked
    (func : callable) (args : list value) (kwargs : dict) :
  co_name func <> "__init__" ->
  NoDup (map name (signature func)) ->
  validate func args kwargs = Return tt ->
  forall i p v,
    nth_error (signature func) i = Some p ->
    nth_error args i = Some v ->
    instance_or_union v (annotation_of p) = Return true.
Proof.
  intros Hname Hnodup Hvalid i p v Hp Hv.
  destruct (validate_return_inv _ _ _ Hvalid) as (arguments & Hbound & Hchecked & Hnone).
  assert (List.length args <= List.length (signature func)) as Hlen.
  { destruct (le_lt_dec (List.length args) (List.length (signature func))) as [|Hmore];
      [assumption|].
    unfold bound_arguments in Hbound.
    destruct (bind_positional_overflow (co_name func) (map name (signature func)) args
                (seq 0 (List.length args)) kwargs (List.length (signature func)))
      as [msg Hraise]; [apply in_seq; lia | | congruence].
    right. unfold shifted. apply String.eqb_neq in Hname as ->.
    apply nth_error_None. now rewrite length_map. }
  unfold bound_arguments in Hbound.
  destruct (bind_positional_plain (co_name func) (map name (signature func)) args
              (List.length args) 0 kwargs) as (bound & Hloop & Hpos & _);
    [now apply String.eqb_neq | exact Hnodup | lia | rewrite length_map; lia |].
  rewrite Hloop in Hbound. injection Hbound as ->.
  assert (dict_get arguments (name p) = Some v) as Hget.
  { apply (Hpos i); [|now apply map_nth_error | exact Hv].
    assert (i < List.length args) by (apply nth_error_Some; congruence). lia. }
  destruct (passed_argument_accepted _ _ _ _ Hchecked Hnone Hget) as (q & Hq & Hacc).
  rewrite (params_get_nth _ _ _ Hnodup Hp) in Hq. now injection Hq as <-.
Qed.

(** X10: a parameter that the call leaves out is never reported,
    whatever its annotation: every name the scan collects is a keyword of
    the call or the parameter at the shifted position of a positional
    value. *)
Theorem reported_names_supplied
    (func : callable) (args : list value) (kwargs arguments : dict)
    (found : findings) (k : string) :
  bound_arguments func args kwargs = Return arguments ->
  check_arguments (signature func) arguments (dict_keys arguments) ([], [], [])
    = Return found ->
  In k (fst (fst found)) ->
  In k (dict_keys kwargs)
  \/ exists i, i < List.length args
       /\ nth_error (map name (signature func)) (shifted (co_name func) i) = Some k.
Proof.
  intros Hbound Hscan Hin.
  rewrite (check_arguments_found _ _ _ _ _ Hscan) in Hin. simpl in Hin.
  apply violations_names in Hin as [Hkey _].
  unfold bound_arguments in Hbound.
  destruct (bind_positional_added _ _ _ _ _ _ Hbound) as (added & Hkeys & Hadded).
  rewrite Hkeys in Hkey. apply in_app_or in Hkey as [Hkey|Hkey]; [auto|].
  destruct (Hadded k Hkey) as (i & Hi & Hnth).
  right. exists i. split; [|exact Hnth]. apply in_seq in Hi. lia.
Qed.

(** X11: [validate] looks at a callable through its name and its
    introspected signature only, so for a decorated callable it gives the
    verdict of the original, for both decorators. *)
Theorem validate_sees_through_decorators
    (func : callable) (cls cls' : pyclassdef) (args : list value) (kwargs : dict) :
  validatedclass cls = Return cls' ->
  validate (validatedfunction func) args kwargs = validate func args kwargs
  /\ validate (cd_init cls') args kwargs = validate (cd_init cls) args kwargs.
Proof.
  unfold validatedclass. destruct (exec_def _) as [own|e]; simpl; [|discriminate].
  intros [= <-]. split; reflexivity.
Qed.

End ValidateExtra.

(** ** Further facts: the decorators *)

Section WrapperExtra.

Context {rt : Runtime}.

(** X12: once [validatedclass] has wrapped a constructor named
    [__init__], a call of the installed constructor that reaches the
    closure [validation] with at least one value besides the instance ends
    in the [IndexError] of the binding loop with the original never
    called: the generated function passes the declared values on by
    position.  The closure is reached when no local variable of the
    generated function is named [validation]. *)
Theorem wrapped_constructor_raises_on_fields
    (cls cls' : pyclassdef) (own : list param) (args : list value)
    (kwargs locals : dict) (self v : value) (rest : list value) (t : trace) :
  validatedclass cls = Return cls' ->
  co_name (cd_init cls) = "__init__" ->
  exec_def (signature (cd_init cls)) = Return own ->
  bind_call own args kwargs = Return locals ->
  dict_get locals "validation" = None ->
  load_names locals (map name (signature (cd_init cls))) = Return (self :: v :: rest) ->
  exists msg, co_body (cd_init cls') args kwargs t = (Raise (IndexError msg), t).
Proof.
  intros Hwrap Hname Hexec Hbind Hshadow Hload.
  unfold validatedclass in Hwrap. rewrite Hexec in Hwrap. simpl in Hwrap.
  injection Hwrap as <-. simpl. unfold bindM, lift.
  rewrite Hbind. simpl. rewrite Hload. simpl. rewrite Hshadow.
  unfold validation, bindM, lift.
  destruct (validate_init_positional (cd_init cls) (v :: rest) [] Hname) as [msg ->];
    [discriminate | eauto].
Qed.

(** X13: when validation passes, each decorator calls the original
    exactly once, with the arguments of the call (the instance in front for
    a constructor); an exception of the original goes through, and a value
    it returns is replaced by [None]. *)
Theorem passed_validation_delegates
    (func : callable) (args : list value) (kwargs : dict) (t : trace) :
  validate func args kwargs = Return tt ->
  co_body (validatedfunction func) args kwargs t
  = match co_body func args kwargs (t ++ [Enter (co_name func) args kwargs]) with
    | (Return _, t') => (Return VNone, t')
    | (Raise e, t') => (Raise e, t')
    end
  /\ (forall self,
        validation func self args kwargs t
        = match co_body func (self :: args) kwargs
                  (t ++ [Enter (co_name func) (self :: args) kwargs]) with
          | (Return _, t') => (Return VNone, t')
          | (Raise e, t') => (Raise e, t')
          end).
Proof.
  intros Hvalid. split; [|intros self]; simpl;
    unfold validation, bindM, lift, ret, call; rewrite Hvalid;
    now destruct (co_body func _ kwargs _) as [[r|e] t'].
Qed.

(** X15: an annotation whose text begins with [typing.] is shown by
    the rest of that text. *)
Theorem good_type_strips_typing (a : annotation) (s : string) :
  str_annotation a = ("typing." ++ s)%string ->
  good_type a = s.
Proof.
  intros Htext. unfold good_type. rewrite Htext.
  assert (PyStr.startswith ("typing." ++ s)%string "typing" = true) as -> by reflexivity.
  unfold PyStr.slice, PyStr.clamp. rewrite PyStrFacts.length_app.
  change (String.length "typing.") with 7.
  replace (Z.to_nat (Z.min (Z.max 0 (if (7 <? 0)%Z then (7 + Z.of_nat (7 + String.length s))%Z else 7%Z))
             (Z.of_nat (7 + String.length s)))) with 7
    by (change (7 <? 0)%Z with false; lia).
  replace (7 + String.length s - 7) with (String.length s) by lia.
  change (PyStr.drop 7 ("typing." ++ s)%string) with s.
  clear. induction s as [|ch s IH]; simpl; [reflexivity | now rewrite IH].
Qed.

(** X16: an annotation whose text does not begin with [typing] loses
    its first eight and last two characters, so a text of at most ten
    characters is shown as the empty text. *)
Theorem good_type_short_text (a : annotation) :
  PyStr.startswith (str_annotation a) "typing" = false ->
  String.length (str_annotation a) <= 10 ->
  good_type a = "".
Proof.
  intros Hstart Hlen. unfold good_type. rewrite Hstart.
  unfold PyStr.slice, PyStr.clamp.
  change (8 <? 0)%Z with false. change (-2 <? 0)%Z with true.
  cbv beta iota.
  set (n := String.length (str_annotation a)) in *.
  assert (Z.to_nat (Z.min (Z.max 0 (-2 + Z.of_nat n)) (Z.of_nat n))
          - Z.to_nat (Z.min (Z.max 0 8) (Z.of_nat n)) = 0) as -> by lia.
  reflexivity.
Qed.

End WrapperExtra.

(** ** The further facts at concrete calls *)

Module ExtraCases.
Import Reference Builtins.

Lemma bound_arguments_keys_witness :
  exists added,
    dict_keys [("b", VStr "y"); ("a", VInt 7)] = dict_keys [("b", VStr "y")] ++ added
    /\ (forall k, In k added ->
          exists i, i < List.length [VInt 7]
            /\ nth_error (map name (signature pair)) (shifted (co_name pair) i) = Some k).
Proof.
  apply (bound_arguments_keys pair [VInt 7] [("b", VStr "y")]). reflexivity.
Defined.

Lemma pair_names_distinct : NoDup (map name (signature pair)).
Proof.
  simpl. repeat constructor; simpl; intuition discriminate.
Defined.

Lemma plain_positional_binding_witness :
  exists arguments,
    bound_arguments pair [VInt 7] [("a", VStr "kw")] = Return arguments
    /\ (forall i p v,
          nth_error (signature pair) i = Some p ->
          nth_error [VInt 7] i = Some v ->
          dict_get arguments (name p) = Some v).
Proof.
  apply (plain_positional_binding pair [VInt 7] [("a", VStr "kw")]);
    [discriminate | exact pair_names_distinct | simpl; lia].
Defined.

Lemma plain_binding_keeps_keywords_witness :
  dict_get [("b", VStr "y"); ("a", VInt 7)] "b" = dict_get [("b", VStr "y")] "b".
Proof.
  apply (plain_binding_keeps_keywords pair [VInt 7] [("b", VStr "y")]);
    [discriminate | exact pair_names_distinct | simpl; lia | reflexivity |].
  simpl. intros [H|[]]. discriminate.
Defined.

Lemma validate_return_sound_witness :
  exists arguments,
    bound_arguments pair [VInt 7] [("b", VStr "y")] = Return arguments
    /\ (forall k v, dict_get arguments k = Some v ->
          exists p, params_get (signature pair) k = Some p
                    /\ instance_or_union v (annotation_of p) = Return true).
Proof.
  apply (validate_return_sound pair [VInt 7] [("b", VStr "y")]). reflexivity.
Defined.

Lemma plain_positional_checked_witness :
  instance_or_union (VStr "y") (annotation_of (required "b" (AClass str_))) = Return true.
Proof.
  apply (plain_positional_checked pair [VInt 7; VStr "y"] []
           ltac:(discriminate) pair_names_distinct eq_refl
           1 (required "b" (AClass str_)) (VStr "y"));
    reflexivity.
Defined.

Lemma reported_names_supplied_witness :
  In "b" (dict_keys [("b", VInt 0)])
  \/ exists i, i < List.length [VInt 7]
       /\ nth_error (map name (signature pair)) (shifted (co_name pair) i) = Some "b".
Proof.
  apply (reported_names_supplied pair [VInt 7] [("b", VInt 0)]
           [("b", VInt 0); ("a", VInt 7)] (["b"], ["int"], ["str"]) "b");
    [reflexivity | reflexivity | simpl; auto].
Defined.

Lemma validate_sees_through_decorators_witness :
  validate (validatedfunction succ) [] [("name", VInt 5)]
  = validate succ [] [("name", VInt 5)]
  /\ validate
       (update_wrapper (generated_func example_init (signature example_init)) example_init)
       [] [("name", VInt 5)]
     = validate example_init [] [("name", VInt 5)].
Proof.
  apply (validate_sees_through_decorators succ example
           (ClassDef (cd_class example)
              (update_wrapper (generated_func example_init (signature example_init))
                 example_init))).
  reflexivity.
Defined.

Lemma wrapped_constructor_raises_on_fields_witness :
  exists msg,
    co_body
      (update_wrapper (generated_func example_init (signature example_init)) example_init)
      [VObject (cd_class example) 0] [("name", VStr "x")] []
    = (Raise (IndexError msg), []).
Proof.
  apply (wrapped_constructor_raises_on_fields example
           (ClassDef (cd_class example)
              (update_wrapper (generated_func example_init (signature example_init))
                 example_init))
           (signature example_init)
           [VObject (cd_class example) 0] [("name", VStr "x")]
           [("self", VObject (cd_class example) 0); ("name", VStr "x");
            ("id", VInt 1000); ("weight", VInt 100)]
           (VObject (cd_class example) 0) (VStr "x") [VInt 1000; VInt 100]);
    reflexivity.
Defined.

Lemma passed_validation_delegates_witness :
  co_body (validatedfunction succ) [VInt 1] [] []
  = (Return VNone, [Enter "succ" [VInt 1] []])
  /\ (forall self,
        validation succ self [VInt 1] [] []
        = match co_body succ [self; VInt 1] [] [Enter "succ" [self; VInt 1] []] with
          | (Return _, t') => (Return VNone, t')
          | (Raise e, t') => (Raise e, t')
          end).
Proof.
  apply (passed_validation_delegates succ [VInt 1] [] []). reflexivity.
Defined.

Lemma good_type_strips_typing_witness :
  good_type (AUnion [AClass int_; AClass float_]) = "Union[int, float]".
Proof.
  apply (good_type_strips_typing (AUnion [AClass int_; AClass float_]) "Union[int, float]").
  reflexivity.
Defined.

Lemma good_type_short_text_witness : good_type (AOpaque "list[int]") = "".
Proof.
  apply (good_type_short_text (AOpaque "list[int]")); [reflexivity | simpl; lia].
Defined.

End ExtraCases.
